(** * Gesture reducer and touch normaliser of the canvas editor

    A shallow embedding of the layer reducer (the [produce] recipe with its
    five cases and default branch), of the earlier three-case reducer of
    [RectLayer.tsx], and of the touch handlers of [TouchDraggable]. *)

From Stdlib Require Import ZArith String List.
From Stdlib.Floats Require Import PrimFloat.
From stdpp Require Import base option list gmap strings.

Local Open Scope Z_scope.

(** ** Numbers

    [type Pixel = number] and [type Radian = number]: a JavaScript number is
    an IEEE 754 binary64 value, which is what the primitive type [float]
    is.  Layer ids are integers and are used both under [===] and as
    property keys, so they are kept in [Z]. *)

Definition Pixel := float.
Definition Radian := float.

(** ** Values of destructured properties

    [const { x, y } = transform] reads properties by name; a property the
    object does not have reads as [undefined]. *)

Inductive value :=
| VUndefined
| VNumber (n : float).

(** ToNumber of the language: [undefined] converts to NaN. *)
Definition ToNumber (v : value) : float :=
  match v with
  | VUndefined => nan
  | VNumber n => n
  end.

(** The binary [+] on operands none of which is a string. *)
Definition js_add (a b : value) : float :=
  PrimFloat.add (ToNumber a) (ToNumber b).

(** ** Exceptions *)

Inductive Error :=
| ReferenceError (name : string)
| TypeError (message : string).

Inductive result (A : Type) :=
| Ok (a : A)
| Throw (e : Error).
Arguments Ok {A} a.
Arguments Throw {A} e.

#[global] Instance result_ret : MRet result := fun A a => Ok a.
#[global] Instance result_bind : MBind result := fun A B k r =>
  match r with
  | Ok a => k a
  | Throw e => Throw e
  end.

(** [xs.forEach(f)] where [f] updates the element it is given and may
    throw: elements are visited in order and the first exception aborts the
    loop. *)
Fixpoint forEach {A} (f : A -> result A) (xs : list A) : result (list A) :=
  match xs with
  | [] => Ok []
  | x :: rest =>
      x' ← f x;
      rest' ← forEach f rest;
      Ok (x' :: rest')
  end.

(** ** Data model *)

(** [interface Layer], together with the two properties [x] and [y] that
    the ['layer/moved'] case writes on a layer object; they are absent
    ([None]) until written. *)
Record Layer := mkLayer {
  id : Z;
  width : Pixel;
  height : Pixel;
  positionX : Pixel;
  positionY : Pixel;
  rotate : Radian;
  x : option float;
  y : option float
}.

(** [type Transform = Pick<Layer, "width" | "height" | "positionX" |
    "positionY" | "rotate">]. *)
Record Transform := mkTransform {
  t_width : Pixel;
  t_height : Pixel;
  t_positionX : Pixel;
  t_positionY : Pixel;
  t_rotate : Radian
}.

(** [pick(layer, ['width', 'height', 'positionX', 'positionY', 'rotate'])]. *)
Definition pick (layer : Layer) : Transform :=
  {| t_width := width layer;
     t_height := height layer;
     t_positionX := positionX layer;
     t_positionY := positionY layer;
     t_rotate := rotate layer |}.

(** Reading a property of a [Transform] by name. *)
Definition Transform_get (t : Transform) (name : string) : value :=
  if String.eqb name "width" then VNumber (t_width t)
  else if String.eqb name "height" then VNumber (t_height t)
  else if String.eqb name "positionX" then VNumber (t_positionX t)
  else if String.eqb name "positionY" then VNumber (t_positionY t)
  else if String.eqb name "rotate" then VNumber (t_rotate t)
  else VUndefined.

(** [interface State]. *)
Record State := mkState {
  layers : list Layer;
  initialTransforms : gmap Z Transform
}.

Definition initialState : State :=
  {| layers :=
       [ {| id := 1;
            width := 200%float;
            height := 100%float;
            positionX := 0%float;
            positionY := 0%float;
            rotate := 0%float;
            x := None;
            y := None |} ];
     initialTransforms := ∅ |}.

(** ** Actions

    The objects built by [action(type, payload)].  The five constructors
    are the five [case] labels of the reducer's [switch]; [other] stands
    for an action object whose [type] is none of them, which is what the
    [default] branch receives. *)
Inductive Action :=
| moveStarted (id : Z)
| moved (dx dy : Pixel)
| moveEnded
| resized (dx dy : Pixel)
| rotated (id : Z) (nextTheta : Radian)
| other (type : string).

(** [const unreduceable = (unknownAction: never) => void unknownAction]. *)
Definition unreduceable (unknownAction : Action) : value := VUndefined.

(** ** The recipe handed to [produce] *)

(** Body of the [forEach] of ['layer/moveStarted']:
    [state.initialTransforms[layer.id] = pick(layer, [...])]. *)
Definition moveStarted_each (transforms : gmap Z Transform) (layer : Layer)
  : gmap Z Transform :=
  <[id layer := pick layer]> transforms.

(** Body of the [forEach] of ['layer/moved']. *)
Definition moved_each (transforms : gmap Z Transform) (dx dy : Pixel)
    (layer : Layer) : result Layer :=
  match transforms !! id layer with
  | None => Ok layer
  | Some transform =>
      let x0 := Transform_get transform "x" in
      let y0 := Transform_get transform "y" in
      Ok {| id := id layer;
            width := width layer;
            height := height layer;
            positionX := positionX layer;
            positionY := positionY layer;
            rotate := rotate layer;
            x := Some (js_add x0 (VNumber dx));
            y := Some (js_add y0 (VNumber dy)) |}
  end.

(** The layer [moved_each] computes, as a total function. *)
Definition moved_layer (transforms : gmap Z Transform) (dx dy : Pixel)
    (layer : Layer) : Layer :=
  match transforms !! id layer with
  | None => layer
  | Some _ =>
      {| id := id layer; width := width layer; height := height layer;
         positionX := positionX layer; positionY := positionY layer;
         rotate := rotate layer;
         x := Some (PrimFloat.add nan dx);
         y := Some (PrimFloat.add nan dy) |}
  end.

(** Body of the [forEach] of ['layer/resized'].  After
    [const { width, height } = transform] the assignment reads [x + dx];
    no binding of [x] is in scope at that point (the callback, the recipe,
    the reducer and the module declare none), so evaluating the right-hand
    side throws before anything is written. *)
Definition resized_each (transforms : gmap Z Transform) (dx dy : Pixel)
    (layer : Layer) : result Layer :=
  match transforms !! id layer with
  | None => Ok layer
  | Some transform =>
      let width0 := Transform_get transform "width" in
      let height0 := Transform_get transform "height" in
      Throw (ReferenceError "x")
  end.

(** [layer.rotate = nextTheta]. *)
Definition set_rotate (nextTheta : Radian) (layer : Layer) : Layer :=
  {| id := id layer;
     width := width layer;
     height := height layer;
     positionX := positionX layer;
     positionY := positionY layer;
     rotate := nextTheta;
     x := x layer;
     y := y layer |}.

(** [state.layers.find(layer => layer.id === id)] followed by
    [if (layer) { layer.rotate = nextTheta }]: the first layer whose id is
    [id0] is updated in place. *)
Fixpoint rotate_found (id0 : Z) (nextTheta : Radian) (ls : list Layer)
  : list Layer :=
  match ls with
  | [] => []
  | layer :: rest =>
      if Z.eqb (id layer) id0 then set_rotate nextTheta layer :: rest
      else layer :: rotate_found id0 nextTheta rest
  end.

(** The function [state => { switch (action.type) { ... } }]. *)
Definition recipe (action : Action) (state : State) : result State :=
  match action with
  | moveStarted _ =>
      Ok {| layers := layers state;
            initialTransforms :=
              foldl moveStarted_each (initialTransforms state) (layers state) |}
  | moved dx dy =>
      layers' ← forEach (moved_each (initialTransforms state) dx dy)
                        (layers state);
      Ok {| layers := layers'; initialTransforms := initialTransforms state |}
  | moveEnded =>
      Ok {| layers := layers state; initialTransforms := ∅ |}
  | resized dx dy =>
      layers' ← forEach (resized_each (initialTransforms state) dx dy)
                        (layers state);
      Ok {| layers := layers'; initialTransforms := initialTransforms state |}
  | rotated id0 nextTheta =>
      Ok {| layers := rotate_found id0 nextTheta (layers state);
            initialTransforms := initialTransforms state |}
  | other _ =>
      let _ := unreduceable action in
      Ok state
  end.

(** immer's [produce(base, recipe)]: the recipe runs on a draft of [base];
    the finished draft is the next state, and an exception thrown by the
    recipe propagates to the caller. *)
Definition produce (base : State) (recipe : State -> result State)
  : result State :=
  recipe base.

(** [const reducer = (currentState = initialState, action) =>
    { produce(currentState, state => { ... }) }]: the arrow function has a
    block body that evaluates the [produce] call as a statement and ends
    without a [return], so what it returns is [undefined] ([None]).  The
    default parameter replaces an [undefined] first argument by
    [initialState]. *)
Definition reducer (currentState : option State) (action : Action)
  : result (option State) :=
  let currentState := default initialState currentState in
  _ ← produce currentState (recipe action);
  Ok None.

(** Dispatching a list of actions, each on the state the previous
    [produce] call computed. *)
Fixpoint run (state : State) (actions : list Action) : result State :=
  match actions with
  | [] => Ok state
  | a :: rest => s' ← produce state (recipe a); run s' rest
  end.

(** The seeded layer, with the properties [x] and [y] as given, and the
    snapshot ['layer/moveStarted'] records for it. *)
Definition seededLayer (ox oy : option float) : Layer :=
  {| id := 1; width := 200%float; height := 100%float;
     positionX := 0%float; positionY := 0%float; rotate := 0%float;
     x := ox; y := oy |}.

Definition seededSnapshot : gmap Z Transform :=
  {[ 1 := {| t_width := 200%float; t_height := 100%float;
             t_positionX := 0%float; t_positionY := 0%float;
             t_rotate := 0%float |} ]}.

(** The states the engine can be in: the seeded state and every state a
    [produce] call computes from one of them. *)
Inductive reachable : State -> Prop :=
| reachable_init : reachable initialState
| reachable_step s a s' :
    reachable s -> produce s (recipe a) = Ok s' -> reachable s'.

(** Every id that has a snapshot is the id of a layer of the collection. *)
Definition snapshots_have_layers (s : State) : Prop :=
  forall k, is_Some (initialTransforms s !! k) ->
            exists layer, layer ∈ layers s /\ id layer = k.

(** ** The reducer of [RectLayer.tsx]

    The earlier version of the same reducer: the [switch] has the cases
    ['layer/moveStarted'], ['layer/moved'] and ['layer/moveEnded'] only and
    no [default]; for any other action no case is selected. *)
Module RectLayer.

Definition recipe (action : Action) (state : State) : result State :=
  match action with
  | moveStarted _ =>
      Ok {| layers := layers state;
            initialTransforms :=
              foldl moveStarted_each (initialTransforms state)
                    (layers state) |}
  | moved dx dy =>
      layers' ← forEach (moved_each (initialTransforms state) dx dy)
                        (layers state);
      Ok {| layers := layers';
            initialTransforms := initialTransforms state |}
  | moveEnded =>
      Ok {| layers := layers state; initialTransforms := ∅ |}
  | resized _ _ | rotated _ _ | other _ => Ok state
  end.

Definition reducer (currentState : option State) (action : Action)
  : result (option State) :=
  let currentState := default initialState currentState in
  _ ← produce currentState (recipe action);
  Ok None.

End RectLayer.

(** ** The touch normaliser ([TouchDraggable]) and its wiring in [Canvas] *)
Module TouchDraggable.

(** An element of [e.changedTouches]. *)
Record Touch := mkTouch {
  clientX : Pixel;
  clientY : Pixel
}.

(** An event target; [layerId] is [Number(dataset.layerId)]. *)
Record EventTarget := mkEventTarget {
  layerId : Z
}.

(** A [TouchEvent]: its two targets (a [null] target is [None]), the
    contact points currently on the surface ([touches]) and the contact
    points that changed in this event ([changedTouches]).  The handlers
    read [changedTouches] only. *)
Record TouchEvent := mkTouchEvent {
  currentTarget : option EventTarget;
  target : option EventTarget;
  touches : list Touch;
  changedTouches : list Touch
}.

(** What a handler does to the outside: [e.stopPropagation()] and the
    calls of [this.handlers]. *)
Inductive Call :=
| stopPropagation
| onDragStart (x y : Pixel) (e : TouchEvent)
| onMove (dx dy : Pixel)
| onDragEnd (e : TouchEvent).

(** [private initialTouch?: { x: Pixel, y: Pixel }]. *)
Record t := mk {
  initialTouch : option (Pixel * Pixel)
}.

(** [!e.currentTarget || !e.target]. *)
Definition lacks_target (e : TouchEvent) : bool :=
  negb (bool_decide (is_Some (currentTarget e)))
  || negb (bool_decide (is_Some (target e))).

(** [e.changedTouches.length !== 1]. *)
Definition not_single_touch (e : TouchEvent) : bool :=
  negb (Nat.eqb (length (changedTouches e)) 1).

Definition _onTouchStart (this : t) (e : TouchEvent) : t * list Call :=
  if lacks_target e then (this, [stopPropagation])
  else if not_single_touch e then (this, [stopPropagation])
  else
    match changedTouches e with
    | touch :: _ =>
        let x := clientX touch in
        let y := clientY touch in
        ({| initialTouch := Some (x, y) |},
         [stopPropagation; onDragStart x y e])
    | [] => (this, [stopPropagation])
    end.

Definition _onTouchMove (this : t) (e : TouchEvent) : t * list Call :=
  if lacks_target e then (this, [stopPropagation])
  else if not_single_touch e then (this, [stopPropagation])
  else
    match initialTouch this, changedTouches e with
    | Some (x, y), touch :: _ =>
        (this,
         [stopPropagation;
          onMove (PrimFloat.sub (clientX touch) x)
                 (PrimFloat.sub (clientY touch) y)])
    | _, _ => (this, [stopPropagation])
    end.

(** [e.stopPropagation(); this.handlers.onDragEnd(e);
    this.initialTouch = undefined]: the assignment is reached only when
    the handler returns.  [handlers_onDragEnd] is what the handler does
    with the event; when it throws, the exception leaves [_onTouchEnd]
    towards the host's event dispatch and the recorded start stays. *)
Definition _onTouchEnd (handlers_onDragEnd : TouchEvent -> result unit)
    (this : t) (e : TouchEvent) : t * list Call :=
  match handlers_onDragEnd e with
  | Ok _ => ({| initialTouch := None |}, [stopPropagation; onDragEnd e])
  | Throw _ => (this, [stopPropagation; onDragEnd e])
  end.

(** [Canvas]'s [onDragStart]:
    [dispatch(LayerActions.moveStarted(Number(e.currentTarget.dataset.layerId)))];
    the action it dispatches.  Reading [dataset] of a [null]
    [currentTarget] throws.  It is the only place where
    ['layer/moveStarted'] is dispatched. *)
Definition Canvas_onDragStart (e : TouchEvent) : result Action :=
  match currentTarget e with
  | Some el => Ok (moveStarted (layerId el))
  | None => Throw (TypeError "e.currentTarget is null")
  end.

(** [Canvas]'s [onDragEnd]:
    [() => { e.stopPropagation(); dispatch(LayerActions.dragEnded()); }].
    The function has no parameter and no [e] is in scope, so its first
    statement throws. *)
Definition Canvas_onDragEnd (_ : TouchEvent) : result unit :=
  Throw (ReferenceError "e").

(** The ['layer/moveStarted'] actions a list of handler calls
    dispatches; a call of [onDragStart] that throws dispatches none. *)
Definition moveStarted_dispatches (calls : list Call) : list Action :=
  flat_map (fun c => match c with
                     | onDragStart _ _ e =>
                         match Canvas_onDragStart e with
                         | Ok a => [a]
                         | Throw _ => []
                         end
                     | _ => []
                     end) calls.

(** Whether a handler call is a [GestureStart]. *)
Definition is_onDragStart (c : Call) : bool :=
  match c with
  | onDragStart _ _ _ => true
  | _ => false
  end.

(** A touch-start event carrying two contact points. *)
Definition twoContactStart : TouchEvent :=
  {| currentTarget := Some {| layerId := 1 |};
     target := Some {| layerId := 1 |};
     touches := [ {| clientX := 10%float; clientY := 10%float |};
                  {| clientX := 90%float; clientY := 40%float |} ];
     changedTouches := [ {| clientX := 10%float; clientY := 10%float |};
                         {| clientX := 90%float; clientY := 40%float |} ] |}.

(** The touch-start event of a second finger that lands at [(90, 40)]
    while a first finger is down at [(10, 10)]: two contact points are on
    the surface and one of them is new. *)
Definition secondFingerStart : TouchEvent :=
  {| currentTarget := Some {| layerId := 1 |};
     target := Some {| layerId := 1 |};
     touches := [ {| clientX := 10%float; clientY := 10%float |};
                  {| clientX := 90%float; clientY := 40%float |} ];
     changedTouches := [ {| clientX := 90%float; clientY := 40%float |} ] |}.

End TouchDraggable.

(** ** The rotate handle ([RotateHandler]) *)
Module RotateHandler.

Section Host.

(** The host's [Math.atan2] on two numbers neither of which is NaN. *)
Variable atan2_host : float -> float -> float.

(** Modelled from the spec: [Math.atan2] is the host's two-argument
    arctangent; its result is NaN when an argument is NaN. *)
Definition Math_atan2 (vy vx : float) : float :=
  if is_nan vy || is_nan vx then nan else atan2_host vy vx.

(** The binary [-]. *)
Definition js_sub (a b : value) : float :=
  PrimFloat.sub (ToNumber a) (ToNumber b).

(** [const onMove = (_dx, _dy, x, y) => { ... }] with
    [parentCenter = [cx, cy]]: the angle it hands to
    [LayerActions.rotate]. *)
Definition onMove (parentCenter : Pixel * Pixel) (_dx _dy x y : value)
  : Radian :=
  let '(cx, cy) := parentCenter in
  let vx := js_sub x (VNumber cx) in
  let vy := js_sub y (VNumber cy) in
  let nextTheta := Math_atan2 vy vx in
  nextTheta.

(** A call of [onMove] with the given arguments: a parameter without an
    argument is [undefined]. *)
Definition call_onMove (parentCenter : Pixel * Pixel) (args : list value)
  : Radian :=
  onMove parentCenter
         (default VUndefined (args !! 0%nat))
         (default VUndefined (args !! 1%nat))
         (default VUndefined (args !! 2%nat))
         (default VUndefined (args !! 3%nat)).


End Host.

End RotateHandler.

(** ** Sample states and events *)

(** The seeded state after ['layer/moveStarted']. *)
Definition snapshotState : State :=
  {| layers := [seededLayer None None];
     initialTransforms := seededSnapshot |}.

(** A collection of two layers, with a stale snapshot entry for an id that
    no layer has. *)
Definition twoLayers : State :=
  {| layers :=
       [ seededLayer None None;
         {| id := 2; width := 50%float; height := 40%float;
            positionX := 10%float; positionY := 20%float;
            rotate := 0%float; x := None; y := None |} ];
     initialTransforms :=
       {[ 7 := {| t_width := 1%float; t_height := 1%float;
                  t_positionX := 1%float; t_positionY := 1%float;
                  t_rotate := 0%float |} ]} |}.

(** A touch event on the seeded layer's element with one changed touch at
    [(cx, cy)]. *)
Definition touchAt (cx cy : Pixel) : TouchDraggable.TouchEvent :=
  {| TouchDraggable.currentTarget := Some {| TouchDraggable.layerId := 1 |};
     TouchDraggable.target := Some {| TouchDraggable.layerId := 1 |};
     TouchDraggable.touches :=
       [ {| TouchDraggable.clientX := cx; TouchDraggable.clientY := cy |} ];
     TouchDraggable.changedTouches :=
       [ {| TouchDraggable.clientX := cx; TouchDraggable.clientY := cy |} ] |}.

(** ** Evaluation on the seeded state *)

Example initialState_is_seeded :
  initialState = {| layers := [seededLayer None None];
                    initialTransforms := ∅ |}.
Proof. reflexivity. Qed.

Example js_add_undefined_15 : js_add VUndefined (VNumber 15%float) = nan.
Proof. reflexivity. Qed.

Example snapshot_has_no_x t : Transform_get t "x" = VUndefined.
Proof. reflexivity. Qed.

Example moveStarted_on_seed :
  produce initialState (recipe (moveStarted 1))
  = Ok {| layers := [seededLayer None None];
          initialTransforms := seededSnapshot |}.
Proof. vm_compute. reflexivity. Qed.

(** ** The cases of the recipe *)

Lemma State_eta (s : State) :
  {| layers := layers s; initialTransforms := initialTransforms s |} = s.
Proof. destruct s; reflexivity. Qed.

Lemma moveEnded_clears (s : State) :
  produce s (recipe moveEnded)
  = Ok {| layers := layers s; initialTransforms := ∅ |}.
Proof. reflexivity. Qed.

Lemma moveStarted_keeps_layers (s : State) (i : Z) :
  exists m, produce s (recipe (moveStarted i))
            = Ok {| layers := layers s; initialTransforms := m |}.
Proof. eexists. reflexivity. Qed.

(** C1 (evaluation at the failing input).  On the seeded layer,
    [moveStarted] followed by [moved(15, -5)] leaves [positionX] and
    [positionY] at [0]: the snapshot has no properties [x] and [y], so the
    case writes NaN to the properties [x] and [y] of the layer and never
    touches its position. *)
Theorem moved_leaves_position :
  run initialState [moveStarted 1; moved 15%float (-5)%float]
  = Ok {| layers := [seededLayer (Some nan) (Some nan)];
          initialTransforms := seededSnapshot |}.
Proof. vm_compute. reflexivity. Qed.

Example moved_twice :
  run initialState
      [moveStarted 1; moved 3%float 4%float; moved 15%float (-5)%float]
  = Ok {| layers := [seededLayer (Some nan) (Some nan)];
          initialTransforms := seededSnapshot |}.
Proof. vm_compute. reflexivity. Qed.

(** C2 (evaluation at the failing input).  On the seeded layer,
    [moveStarted] followed by [resized(50, 20)] throws a ReferenceError for
    [x]; no state with width 250 and height 120 is computed. *)
Theorem resized_throws :
  run initialState [moveStarted 1; resized 50%float 20%float]
  = Throw (ReferenceError "x").
Proof. vm_compute. reflexivity. Qed.

(** C4 (evaluation at the failing input).  From every state
    ['layer/moveEnded'] computes the state with the same layers and an
    empty snapshot map.  After [moveStarted], [moved(15, -5)] and
    [moveEnded] on the seeded layer the snapshot map is therefore empty,
    but the position of the layer is [(0, 0)], not [(15, -5)]: the
    ['layer/moved'] case never wrote it. *)
Theorem moveEnded_scenario :
  (forall s, produce s (recipe moveEnded)
             = Ok {| layers := layers s; initialTransforms := ∅ |})
  /\ run initialState [moveStarted 1; moved 15%float (-5)%float; moveEnded]
     = Ok {| layers := [seededLayer (Some nan) (Some nan)];
             initialTransforms := ∅ |}.
Proof. split; [reflexivity|]. vm_compute. reflexivity. Qed.

Lemma moved_each_with_snapshot (transforms : gmap Z Transform)
    (dx dy : Pixel) (layer : Layer) (t0 : Transform) :
  transforms !! id layer = Some t0 ->
  moved_each transforms dx dy layer
  = Ok {| id := id layer; width := width layer; height := height layer;
          positionX := positionX layer; positionY := positionY layer;
          rotate := rotate layer;
          x := Some (PrimFloat.add nan dx);
          y := Some (PrimFloat.add nan dy) |}.
Proof. intros H. unfold moved_each. rewrite H. reflexivity. Qed.

Lemma resized_each_with_snapshot (transforms : gmap Z Transform)
    (dx dy : Pixel) (layer : Layer) (t0 : Transform) :
  transforms !! id layer = Some t0 ->
  resized_each transforms dx dy layer = Throw (ReferenceError "x").
Proof. intros H. unfold resized_each. rewrite H. reflexivity. Qed.

(** ** The value the reducer returns *)

Lemma reducer_never_returns_state (cs : option State) (a : Action)
    (s' : State) :
  reducer cs a <> Ok (Some s').
Proof.
  unfold reducer. cbn.
  destruct (produce (default initialState cs) (recipe a)); cbn; congruence.
Qed.

(** C3 (evaluation at the failing input).  Both reducers return
    [undefined], not a state: for an action that changes the state
    ([moveStarted] on the seeded state, which records a snapshot) and for an
    action of an unrecognised type (which the [default] branch passes to
    [unreduceable] and drops). *)
Theorem reducer_returns_undefined :
  reducer (Some initialState) (moveStarted 1) = Ok None
  /\ reducer (Some initialState) (other "layer/unknown") = Ok None
  /\ RectLayer.reducer (Some initialState) (moveStarted 1) = Ok None
  /\ produce initialState (recipe (moveStarted 1))
     = Ok {| layers := layers initialState;
             initialTransforms := seededSnapshot |}
  /\ produce initialState (recipe (other "layer/unknown")) = Ok initialState.
Proof. repeat split; vm_compute; reflexivity. Qed.

(** ** Loops over the layers *)

Section ForEach.
Context {A : Type}.
Implicit Types (f : A -> result A) (xs : list A).

Lemma forEach_unchanged f xs :
  (forall a, a ∈ xs -> f a = Ok a) -> forEach f xs = Ok xs.
Proof.
  induction xs as [|a xs IH]; intros Hf; [reflexivity|].
  cbn. rewrite (Hf a) by apply list_elem_of_here. cbn.
  rewrite IH; [reflexivity|].
  intros b Hb. apply Hf. by apply list_elem_of_further.
Qed.

Lemma forEach_total f (g : A -> A) xs :
  (forall a, f a = Ok (g a)) -> forEach f xs = Ok (g <$> xs).
Proof.
  intros Hf. induction xs as [|a xs IH]; [reflexivity|].
  cbn. rewrite Hf. cbn. rewrite IH. reflexivity.
Qed.

Lemma forEach_Ok_inv f xs ys :
  forEach f xs = Ok ys -> Forall2 (fun a b => f a = Ok b) xs ys.
Proof.
  revert ys. induction xs as [|a xs IH]; intros ys; cbn.
  - intros [= <-]. constructor.
  - destruct (f a) as [a'|e] eqn:Ha; cbn; [|discriminate].
    destruct (forEach f xs) as [xs'|e] eqn:Hxs; cbn; [|discriminate].
    intros [= <-]. constructor; [exact Ha|]. by apply IH.
Qed.

End ForEach.

Lemma moved_each_total transforms dx dy layer :
  moved_each transforms dx dy layer
  = Ok (moved_layer transforms dx dy layer).
Proof.
  unfold moved_each, moved_layer.
  destruct (transforms !! id layer); reflexivity.
Qed.

Lemma moved_layer_id transforms dx dy layer :
  id (moved_layer transforms dx dy layer) = id layer.
Proof. unfold moved_layer. destruct (transforms !! id layer); reflexivity. Qed.

Lemma moved_total (s : State) (dx dy : Pixel) :
  produce s (recipe (moved dx dy))
  = Ok {| layers := moved_layer (initialTransforms s) dx dy <$> layers s;
          initialTransforms := initialTransforms s |}.
Proof.
  unfold produce. cbn.
  rewrite (forEach_total _ _ _ (moved_each_total _ dx dy)). reflexivity.
Qed.

Lemma resized_each_Ok_inv transforms dx dy layer layer' :
  resized_each transforms dx dy layer = Ok layer' -> layer' = layer.
Proof.
  unfold resized_each. destruct (transforms !! id layer); congruence.
Qed.

Lemma resized_Ok_inv (s s' : State) (dx dy : Pixel) :
  produce s (recipe (resized dx dy)) = Ok s' -> s' = s.
Proof.
  unfold produce. cbn.
  destruct (forEach _ _) as [ls'|e] eqn:Hls; cbn; [|discriminate].
  intros [= <-]. apply forEach_Ok_inv in Hls.
  assert (ls' = layers s) as ->.
  { induction Hls as [|a b xs ys Hab _ IH]; [reflexivity|].
    apply resized_each_Ok_inv in Hab. congruence. }
  apply State_eta.
Qed.

(** C7.  A layer without a snapshot goes through the loop body of
    ['layer/moved'] and of ['layer/resized'] unchanged and without an
    exception; ['layer/moved'] leaves every such layer of the collection as
    it was, whatever happens to the others; and when no layer of the
    collection has a snapshot, both actions compute the state they were
    given. *)
Theorem missing_snapshot_is_noop (s : State) (dx dy : Pixel) :
  (forall layer, initialTransforms s !! id layer = None ->
     moved_each (initialTransforms s) dx dy layer = Ok layer
     /\ resized_each (initialTransforms s) dx dy layer = Ok layer)
  /\ (exists s', produce s (recipe (moved dx dy)) = Ok s'
       /\ forall (i : nat) layer,
            layers s !! i = Some layer ->
            initialTransforms s !! id layer = None ->
            layers s' !! i = Some layer)
  /\ ((forall layer, layer ∈ layers s ->
                     initialTransforms s !! id layer = None) ->
      produce s (recipe (moved dx dy)) = Ok s
      /\ produce s (recipe (resized dx dy)) = Ok s).
Proof.
  split; [|split].
  - intros layer H. unfold moved_each, resized_each. rewrite H. done.
  - eexists. split; [apply moved_total|]. cbn. intros i layer Hi Hnone.
    rewrite list_lookup_fmap, Hi. cbn. unfold moved_layer.
    rewrite Hnone. reflexivity.
  - intros Hall. unfold produce. cbn. split.
    + rewrite forEach_unchanged; [cbn; by rewrite State_eta|].
      intros a Ha. unfold moved_each. by rewrite (Hall a Ha).
    + rewrite forEach_unchanged; [cbn; by rewrite State_eta|].
      intros a Ha. unfold resized_each. by rewrite (Hall a Ha).
Qed.

Lemma missing_snapshot_is_noop_witness :
  produce initialState (recipe (moved 50%float 20%float)) = Ok initialState
  /\ produce initialState (recipe (resized 50%float 20%float))
     = Ok initialState.
Proof.
  apply (proj2 (proj2 (missing_snapshot_is_noop initialState _ _))).
  intros layer _. reflexivity.
Defined.

(** ** ['layer/rotated'] *)

Lemma rotate_found_absent (id0 : Z) (theta : Radian) (ls : list Layer) :
  (forall layer, layer ∈ ls -> id layer <> id0) ->
  rotate_found id0 theta ls = ls.
Proof.
  induction ls as [|l ls IH]; intros Hno; [reflexivity|]. cbn.
  destruct (Z.eqb_spec (id l) id0) as [Heq|_].
  - exfalso. exact (Hno l (list_elem_of_here _ _) Heq).
  - rewrite IH; [reflexivity|].
    intros l' Hl'. apply Hno. by apply list_elem_of_further.
Qed.

Lemma rotate_found_first (id0 : Z) (theta : Radian) (ls : list Layer)
    (layer0 : Layer) :
  layer0 ∈ ls -> id layer0 = id0 ->
  exists (i : nat) layer,
    ls !! i = Some layer /\ id layer = id0
    /\ (forall (j : nat) layer',
          (j < i)%nat -> ls !! j = Some layer' -> id layer' <> id0)
    /\ rotate_found id0 theta ls = <[i := set_rotate theta layer]> ls.
Proof.
  intros Hin Hid. induction ls as [|l ls IH]; [by apply elem_of_nil in Hin|].
  cbn. destruct (Z.eqb_spec (id l) id0) as [Heq|Hne].
  - exists 0%nat, l. repeat split; [exact Heq|]. intros j l' Hj. lia.
  - apply elem_of_cons in Hin as [->|Hin]; [contradiction|].
    destruct (IH Hin) as (i & l1 & Hi & Hl1 & Hbefore & Heq).
    exists (S i), l1. repeat split; [exact Hi|exact Hl1| |by rewrite Heq].
    intros [|j] l' Hj Hlook; cbn in Hlook.
    + congruence.
    + apply (Hbefore j); [lia|exact Hlook].
Qed.

Lemma rotate_found_ids (id0 : Z) (theta : Radian) (ls : list Layer) :
  id <$> rotate_found id0 theta ls = id <$> ls.
Proof.
  induction ls as [|l ls IH]; [reflexivity|]. cbn.
  destruct (Z.eqb (id l) id0); cbn; [reflexivity|]. by rewrite IH.
Qed.

(** With unique ids the layer that is rotated is the layer with that id. *)
Lemma rotated_unique_id (s : State) (id0 : Z) (theta : Radian)
    (i : nat) (layer : Layer) :
  NoDup (id <$> layers s) ->
  layers s !! i = Some layer -> id layer = id0 ->
  produce s (recipe (rotated id0 theta))
  = Ok {| layers := <[i := set_rotate theta layer]> (layers s);
          initialTransforms := initialTransforms s |}.
Proof.
  intros Hnd Hi Hid.
  destruct (rotate_found_first id0 theta (layers s) layer)
    as (i' & l' & Hi' & Hl' & _ & Heq);
    [by eapply list_elem_of_lookup_2|exact Hid|].
  assert (i' = i) as ->.
  { apply (NoDup_lookup (id <$> layers s) i' i id0 Hnd);
      rewrite list_lookup_fmap; [rewrite Hi'|rewrite Hi]; cbn; congruence. }
  assert (l' = layer) as -> by congruence.
  unfold produce. cbn. by rewrite Heq.
Qed.

(** C5.  ['layer/rotated'] with an id no layer has computes the state it
    was given.  With an id some layer has, it computes the state in which
    one layer, the first with that id, has [rotate] replaced by
    [nextTheta]; the other fields of that layer, every other layer, and the
    snapshot map are as before. *)
Theorem rotated_sets_only_rotate (s : State) (id0 : Z) (theta : Radian) :
  ((forall layer, layer ∈ layers s -> id layer <> id0) ->
   produce s (recipe (rotated id0 theta)) = Ok s)
  /\ (forall layer0, layer0 ∈ layers s -> id layer0 = id0 ->
      exists (i : nat) layer,
        layers s !! i = Some layer /\ id layer = id0
        /\ (forall (j : nat) layer',
              (j < i)%nat -> layers s !! j = Some layer' -> id layer' <> id0)
        /\ produce s (recipe (rotated id0 theta))
           = Ok {| layers := <[i := {| id := id layer;
                                       width := width layer;
                                       height := height layer;
                                       positionX := positionX layer;
                                       positionY := positionY layer;
                                       rotate := theta;
                                       x := x layer;
                                       y := y layer |}]> (layers s);
                   initialTransforms := initialTransforms s |}).
Proof.
  split.
  - intros Hno. unfold produce. cbn.
    rewrite rotate_found_absent by exact Hno. by rewrite State_eta.
  - intros layer0 Hin Hid.
    destruct (rotate_found_first id0 theta _ _ Hin Hid)
      as (i & l & Hi & Hl & Hbefore & Heq).
    exists i, l. repeat split; try assumption.
    unfold produce. cbn. rewrite Heq. reflexivity.
Qed.

Lemma rotated_sets_only_rotate_witness :
  produce initialState (recipe (rotated 2 1%float)) = Ok initialState
  /\ exists (i : nat) layer,
       layers initialState !! i = Some layer /\ id layer = 1
       /\ (forall (j : nat) layer',
             (j < i)%nat -> layers initialState !! j = Some layer' ->
             id layer' <> 1)
       /\ produce initialState (recipe (rotated 1 1%float))
          = Ok {| layers := <[i := {| id := id layer;
                                      width := width layer;
                                      height := height layer;
                                      positionX := positionX layer;
                                      positionY := positionY layer;
                                      rotate := 1%float;
                                      x := x layer;
                                      y := y layer |}]> (layers initialState);
                  initialTransforms := initialTransforms initialState |}.
Proof.
  split.
  - apply (proj1 (rotated_sets_only_rotate initialState 2 1%float)).
    intros layer Hin. apply list_elem_of_singleton in Hin. subst layer.
    cbn. lia.
  - apply (proj2 (rotated_sets_only_rotate initialState 1 1%float)
             (seededLayer None None)).
    + apply list_elem_of_here.
    + reflexivity.
Defined.

(** ** The snapshot map and the collection *)

Lemma snapshots_have_layers_ids (s s' : State) :
  id <$> layers s' = id <$> layers s ->
  (forall k, is_Some (initialTransforms s' !! k) ->
             is_Some (initialTransforms s !! k)) ->
  snapshots_have_layers s -> snapshots_have_layers s'.
Proof.
  intros Hids Hsub Hinv k Hk.
  destruct (Hinv k (Hsub k Hk)) as (l & Hl & Hid).
  assert (k ∈ id <$> layers s') as Hin.
  { rewrite Hids. apply list_elem_of_fmap. by exists l. }
  apply list_elem_of_fmap in Hin as (l' & -> & Hl'). by exists l'.
Qed.

Lemma foldl_moveStarted_lookup (ls : list Layer) (m : gmap Z Transform)
    (k : Z) :
  is_Some (foldl moveStarted_each m ls !! k) ->
  is_Some (m !! k) \/ exists layer, layer ∈ ls /\ id layer = k.
Proof.
  revert m. induction ls as [|l ls IH]; intros m; cbn; [by left|].
  intros Hk. destruct (IH _ Hk) as [Hm|(l' & Hl' & Hid)].
  - unfold moveStarted_each in Hm.
    destruct (decide (id l = k)) as [Heq|Hne].
    + right. exists l. split; [apply list_elem_of_here|exact Heq].
    + left. by rewrite lookup_insert_ne in Hm.
  - right. exists l'. split; [by apply list_elem_of_further|exact Hid].
Qed.

(** After ['layer/moveStarted'] every layer of the collection has a
    snapshot. *)
Lemma foldl_moveStarted_covers (ls : list Layer) (m : gmap Z Transform)
    (layer : Layer) :
  layer ∈ ls -> is_Some (foldl moveStarted_each m ls !! id layer).
Proof.
  assert (Hkeep : forall ls m k, is_Some (m !! k) ->
                    is_Some (foldl moveStarted_each m ls !! k)).
  { clear. induction ls as [|l ls IH]; intros m k Hk; cbn; [exact Hk|].
    apply IH. unfold moveStarted_each.
    destruct (decide (id l = k)) as [<-|Hne].
    - rewrite lookup_insert_eq. by eexists.
    - by rewrite lookup_insert_ne. }
  revert m. induction ls as [|l ls IH]; intros m Hin;
    [by apply elem_of_nil in Hin|].
  cbn. apply elem_of_cons in Hin as [->|Hin]; [|by apply IH].
  apply Hkeep. unfold moveStarted_each. rewrite lookup_insert_eq. by eexists.
Qed.

Lemma produce_preserves_invariant (s s' : State) (a : Action) :
  snapshots_have_layers s -> produce s (recipe a) = Ok s' ->
  snapshots_have_layers s'.
Proof.
  intros Hinv Hstep. destruct a as [i|dx dy| |dx dy|i theta|ty].
  - unfold produce in Hstep. cbn in Hstep. injection Hstep as <-.
    intros k Hk. cbn in Hk.
    destruct (foldl_moveStarted_lookup _ _ _ Hk) as [Hm|Hl];
      [by apply Hinv|exact Hl].
  - rewrite moved_total in Hstep. injection Hstep as <-.
    apply (snapshots_have_layers_ids s); [|done|exact Hinv]. cbn.
    rewrite <- list_fmap_compose. apply list_fmap_ext.
    intros ? l _. cbn. apply moved_layer_id.
  - rewrite moveEnded_clears in Hstep. injection Hstep as <-.
    intros k Hk. cbn in Hk. rewrite lookup_empty in Hk.
    by destruct Hk.
  - apply resized_Ok_inv in Hstep. by subst s'.
  - unfold produce in Hstep. cbn in Hstep. injection Hstep as <-.
    apply (snapshots_have_layers_ids s); [|done|exact Hinv]. cbn.
    apply rotate_found_ids.
  - unfold produce in Hstep. cbn in Hstep. by injection Hstep as <-.
Qed.

(** Every action except ['layer/resized'] computes a next state from every
    state. *)
Lemma produce_total (s : State) (a : Action) :
  (forall dx dy, a <> resized dx dy) ->
  exists s', produce s (recipe a) = Ok s'.
Proof.
  intros Hne. destruct a as [i|dx dy| |dx dy|i theta|ty].
  - eexists. reflexivity.
  - eexists. apply moved_total.
  - eexists. reflexivity.
  - by destruct (Hne dx dy).
  - eexists. reflexivity.
  - eexists. reflexivity.
Qed.

(** C8.  In every reachable state each id with an entry in
    [initialTransforms] is the id of a layer of [layers], and every action
    takes a state with this property to a state with this property. *)
Theorem snapshot_invariant :
  (forall s, reachable s -> snapshots_have_layers s)
  /\ (forall s a s',
        snapshots_have_layers s -> produce s (recipe a) = Ok s' ->
        snapshots_have_layers s').
Proof.
  split.
  - intros s Hs. induction Hs as [|s a s' _ IH Hstep].
    + intros k Hk. cbn in Hk. rewrite lookup_empty in Hk. by destruct Hk.
    + exact (produce_preserves_invariant s s' a IH Hstep).
  - intros s a s'. apply produce_preserves_invariant.
Qed.

Lemma snapshot_invariant_witness :
  snapshots_have_layers
    {| layers := [seededLayer None None];
       initialTransforms := seededSnapshot |}.
Proof.
  apply (proj1 snapshot_invariant).
  apply (reachable_step initialState (moveStarted 1)).
  - apply reachable_init.
  - vm_compute. reflexivity.
Defined.

(** ** The touch-start guard *)

Import TouchDraggable.

(** X17.  A touch-start event without [currentTarget] or [target], or whose
    [changedTouches] does not hold exactly one touch, only has its
    propagation stopped: [onDragStart] is not called, [initialTouch] keeps
    the value it had, and no ['layer/moveStarted'] is dispatched, so the
    state, and with it the snapshot map, stays as it was. *)
Theorem touchStart_guard (this : TouchDraggable.t) (e : TouchEvent)
    (s : State) :
  currentTarget e = None \/ target e = None
  \/ length (changedTouches e) <> 1%nat ->
  _onTouchStart this e = (this, [stopPropagation])
  /\ filter (fun c => is_onDragStart c = true) (snd (_onTouchStart this e))
     = []
  /\ initialTouch (fst (_onTouchStart this e)) = initialTouch this
  /\ run s (moveStarted_dispatches (snd (_onTouchStart this e))) = Ok s.
Proof.
  intros Hguard.
  assert (_onTouchStart this e = (this, [stopPropagation])) as ->.
  { unfold _onTouchStart, lacks_target, not_single_touch.
    destruct Hguard as [H|[H|H]].
    - rewrite H. reflexivity.
    - rewrite H. destruct (currentTarget e); reflexivity.
    - destruct (currentTarget e), (target e); cbn; try reflexivity.
      apply Nat.eqb_neq in H. rewrite H. reflexivity. }
  repeat split.
Qed.

Lemma touchStart_guard_witness :
  _onTouchStart {| initialTouch := None |} twoContactStart
  = ({| initialTouch := None |}, [stopPropagation])
  /\ filter (fun c => is_onDragStart c = true)
       (snd (_onTouchStart {| initialTouch := None |} twoContactStart))
     = []
  /\ initialTouch
       (fst (_onTouchStart {| initialTouch := None |} twoContactStart))
     = None
  /\ run initialState
       (moveStarted_dispatches
          (snd (_onTouchStart {| initialTouch := None |} twoContactStart)))
     = Ok initialState.
Proof.
  apply (touchStart_guard {| initialTouch := None |} twoContactStart
           initialState).
  right. right. cbn. lia.
Defined.

(** A touch-start event with both targets and exactly one touch does start
    a gesture. *)
Lemma touchStart_single (this : TouchDraggable.t) (e : TouchEvent)
    (el el' : EventTarget) (touch : Touch) :
  currentTarget e = Some el -> target e = Some el' ->
  changedTouches e = [touch] ->
  _onTouchStart this e
  = ({| initialTouch := Some (clientX touch, clientY touch) |},
     [stopPropagation; onDragStart (clientX touch) (clientY touch) e])
  /\ moveStarted_dispatches (snd (_onTouchStart this e))
     = [moveStarted (layerId el)].
Proof.
  intros Hc Ht Hl. unfold _onTouchStart, lacks_target, not_single_touch.
  rewrite Hc, Ht, Hl. cbn. unfold Canvas_onDragStart. rewrite Hc. done.
Qed.

(** ** Further properties of the recipe *)

(** X1.  No action adds, removes or reorders layers, or changes an id. *)
Theorem produce_keeps_ids (s s' : State) (a : Action) :
  produce s (recipe a) = Ok s' -> id <$> layers s' = id <$> layers s.
Proof.
  intros Hstep. destruct a as [i|dx dy| |dx dy|i theta|ty].
  - unfold produce in Hstep. cbn in Hstep. by injection Hstep as <-.
  - rewrite moved_total in Hstep. injection Hstep as <-. cbn.
    rewrite <- list_fmap_compose. apply list_fmap_ext.
    intros ? l _. cbn. apply moved_layer_id.
  - rewrite moveEnded_clears in Hstep. by injection Hstep as <-.
  - apply resized_Ok_inv in Hstep. by subst s'.
  - unfold produce in Hstep. cbn in Hstep. injection Hstep as <-. cbn.
    apply rotate_found_ids.
  - unfold produce in Hstep. cbn in Hstep. by injection Hstep as <-.
Qed.

Lemma produce_keeps_ids_witness :
  id <$> layers {| layers := [set_rotate 1%float (seededLayer None None)];
                   initialTransforms := ∅ |}
  = id <$> layers initialState.
Proof.
  apply (produce_keeps_ids initialState _ (rotated 1 1%float)).
  vm_compute. reflexivity.
Defined.

(** X2.  Only ['layer/moveStarted'] and ['layer/moveEnded'] write the snapshot
    map. *)
Theorem snapshots_written_by_start_and_end (s s' : State) (a : Action) :
  (forall i, a <> moveStarted i) -> a <> moveEnded ->
  produce s (recipe a) = Ok s' ->
  initialTransforms s' = initialTransforms s.
Proof.
  intros Hstart Hend Hstep. destruct a as [i|dx dy| |dx dy|i theta|ty].
  - by destruct (Hstart i).
  - rewrite moved_total in Hstep. by injection Hstep as <-.
  - by destruct Hend.
  - apply resized_Ok_inv in Hstep. by subst s'.
  - unfold produce in Hstep. cbn in Hstep. by injection Hstep as <-.
  - unfold produce in Hstep. cbn in Hstep. by injection Hstep as <-.
Qed.

Lemma snapshots_written_by_start_and_end_witness :
  initialTransforms
    {| layers := [seededLayer (Some nan) (Some nan)];
       initialTransforms := seededSnapshot |}
  = initialTransforms snapshotState.
Proof.
  apply (snapshots_written_by_start_and_end snapshotState _
           (moved 15%float (-5)%float)).
  - intros i. discriminate.
  - discriminate.
  - vm_compute. reflexivity.
Defined.

(** *** ['layer/moveStarted'] *)

Lemma foldl_moveStarted_notin (ls : list Layer) (m : gmap Z Transform)
    (k : Z) :
  (forall layer, layer ∈ ls -> id layer <> k) ->
  foldl moveStarted_each m ls !! k = m !! k.
Proof.
  revert m. induction ls as [|l ls IH]; intros m Hno; [reflexivity|].
  cbn. rewrite IH.
  - unfold moveStarted_each. apply lookup_insert_ne.
    apply Hno, list_elem_of_here.
  - intros l' Hl'. by apply Hno, list_elem_of_further.
Qed.

Lemma foldl_moveStarted_last (pre post : list Layer) (layer : Layer)
    (m : gmap Z Transform) :
  (forall layer', layer' ∈ post -> id layer' <> id layer) ->
  foldl moveStarted_each m (pre ++ layer :: post) !! id layer
  = Some (pick layer).
Proof.
  intros Hpost. rewrite foldl_app. cbn.
  rewrite foldl_moveStarted_notin by exact Hpost.
  unfold moveStarted_each at 1. apply lookup_insert_eq.
Qed.

Lemma last_with_id (ls : list Layer) (k : Z) :
  k ∈ id <$> ls ->
  exists pre layer post,
    ls = pre ++ layer :: post /\ id layer = k
    /\ forall layer', layer' ∈ post -> id layer' <> k.
Proof.
  induction ls as [|a ls IH]; cbn; intros Hin;
    [by apply elem_of_nil in Hin|].
  destruct (decide (k ∈ id <$> ls)) as [Htail|Htail].
  - destruct (IH Htail) as (pre & l & post & -> & Hl & Hpost).
    exists (a :: pre), l, post. done.
  - apply elem_of_cons in Hin as [Hhead|Hin]; [|contradiction].
    exists [], a, ls. repeat split; [done|].
    intros l' Hl' Heq. apply Htail, list_elem_of_fmap. by exists l'.
Qed.

(** X3.  ['layer/moveStarted'] keeps the layers and records, for every id in the
    collection, the five geometry fields of the last layer with that id
    (with unique ids: of the layer with that id). *)
Theorem moveStarted_snapshots_layer (s : State) (i : Z)
    (pre post : list Layer) (layer : Layer) :
  layers s = pre ++ layer :: post ->
  (forall layer', layer' ∈ post -> id layer' <> id layer) ->
  exists s',
    produce s (recipe (moveStarted i)) = Ok s'
    /\ layers s' = layers s
    /\ initialTransforms s' !! id layer
       = Some {| t_width := width layer;
                 t_height := height layer;
                 t_positionX := positionX layer;
                 t_positionY := positionY layer;
                 t_rotate := rotate layer |}.
Proof.
  intros Hls Hpost. eexists. split; [reflexivity|]. split; [reflexivity|].
  cbn. rewrite Hls. by apply foldl_moveStarted_last.
Qed.

Lemma moveStarted_snapshots_layer_witness :
  exists s',
    produce twoLayers (recipe (moveStarted 1)) = Ok s'
    /\ layers s' = layers twoLayers
    /\ initialTransforms s' !! 1
       = Some {| t_width := 200%float; t_height := 100%float;
                 t_positionX := 0%float; t_positionY := 0%float;
                 t_rotate := 0%float |}.
Proof.
  apply (moveStarted_snapshots_layer twoLayers 1 []
           [ {| id := 2; width := 50%float; height := 40%float;
                positionX := 10%float; positionY := 20%float;
                rotate := 0%float; x := None; y := None |} ]
           (seededLayer None None)).
  - reflexivity.
  - intros l Hl. apply list_elem_of_singleton in Hl. subst l. cbn. lia.
Defined.

(** X4.  ['layer/moveStarted'] does not clear the map first: the entry of an id
    that no layer has stays as it is. *)
Theorem moveStarted_keeps_stale (s : State) (i k : Z) :
  (forall layer, layer ∈ layers s -> id layer <> k) ->
  exists s',
    produce s (recipe (moveStarted i)) = Ok s'
    /\ initialTransforms s' !! k = initialTransforms s !! k.
Proof.
  intros Hno. eexists. split; [reflexivity|].
  cbn. by apply foldl_moveStarted_notin.
Qed.

Lemma moveStarted_keeps_stale_witness :
  exists s',
    produce twoLayers (recipe (moveStarted 1)) = Ok s'
    /\ initialTransforms s' !! 7 = initialTransforms twoLayers !! 7.
Proof.
  apply (moveStarted_keeps_stale twoLayers 1 7).
  intros l Hl. apply elem_of_cons in Hl as [->|Hl]; [cbn; lia|].
  apply list_elem_of_singleton in Hl. subst l. cbn. lia.
Defined.

Lemma foldl_moveStarted_twice (ls : list Layer) (m : gmap Z Transform) :
  foldl moveStarted_each (foldl moveStarted_each m ls) ls
  = foldl moveStarted_each m ls.
Proof.
  apply map_eq. intros k.
  destruct (decide (k ∈ id <$> ls)) as [Hin|Hout].
  - destruct (last_with_id ls k Hin) as (pre & l & post & -> & <- & Hpost).
    by rewrite !foldl_moveStarted_last.
  - apply foldl_moveStarted_notin.
    intros l Hl Heq. apply Hout, list_elem_of_fmap. by exists l.
Qed.

(** X5.  A second ['layer/moveStarted'], whatever its payload, computes the
    state the first one computed. *)
Theorem moveStarted_idempotent (s : State) (i j : Z) :
  exists s',
    produce s (recipe (moveStarted i)) = Ok s'
    /\ produce s' (recipe (moveStarted j)) = Ok s'.
Proof.
  eexists. split; [reflexivity|].
  unfold produce. cbn. by rewrite foldl_moveStarted_twice.
Qed.

(** *** ['layer/moved'] and ['layer/rotated'] in sequence *)

Lemma moved_layer_twice (transforms : gmap Z Transform)
    (dx1 dy1 dx2 dy2 : Pixel) (layer : Layer) :
  moved_layer transforms dx2 dy2 (moved_layer transforms dx1 dy1 layer)
  = moved_layer transforms dx2 dy2 layer.
Proof.
  unfold moved_layer at 2.
  destruct (transforms !! id layer) as [t0|] eqn:Hl; [|reflexivity].
  unfold moved_layer. cbn. rewrite Hl. reflexivity.
Qed.

Lemma run_cons (s : State) (a : Action) (rest : list Action) :
  run s (a :: rest)
  = match produce s (recipe a) with
    | Ok s' => run s' rest
    | Throw e => Throw e
    end.
Proof. reflexivity. Qed.

(** X6.  Two ['layer/moved'] actions in a row compute the state the second one
    alone computes: the first one's deltas leave no trace. *)
Theorem moved_last_wins (s : State) (dx1 dy1 dx2 dy2 : Pixel) :
  exists s',
    run s [moved dx1 dy1; moved dx2 dy2] = Ok s'
    /\ run s [moved dx2 dy2] = Ok s'.
Proof.
  eexists. split.
  - rewrite run_cons, moved_total, run_cons, moved_total. reflexivity.
  - rewrite run_cons, moved_total. cbn. do 2 f_equal.
    rewrite <- list_fmap_compose. symmetry. apply list_fmap_ext.
    intros ? l _. cbn. apply moved_layer_twice.
Qed.

Lemma rotate_found_twice (id0 : Z) (theta1 theta2 : Radian)
    (ls : list Layer) :
  rotate_found id0 theta2 (rotate_found id0 theta1 ls)
  = rotate_found id0 theta2 ls.
Proof.
  induction ls as [|l ls IH]; [reflexivity|]. cbn.
  destruct (Z.eqb (id l) id0) eqn:Hl; cbn; rewrite Hl; [reflexivity|].
  by rewrite IH.
Qed.

(** X7.  Two ['layer/rotated'] actions for the same id in a row compute the
    state the second one alone computes: the angle is absolute. *)
Theorem rotated_last_wins (s : State) (id0 : Z) (theta1 theta2 : Radian) :
  exists s',
    run s [rotated id0 theta1; rotated id0 theta2] = Ok s'
    /\ run s [rotated id0 theta2] = Ok s'.
Proof.
  eexists. unfold run, produce. cbn.
  rewrite rotate_found_twice. split; reflexivity.
Qed.

Lemma rotate_found_comm (i j : Z) (theta phi : Radian) (ls : list Layer) :
  i <> j ->
  rotate_found j phi (rotate_found i theta ls)
  = rotate_found i theta (rotate_found j phi ls).
Proof.
  intros Hij. induction ls as [|l ls IH]; [reflexivity|]. cbn.
  destruct (Z.eqb_spec (id l) i) as [Hi|Hi];
    destruct (Z.eqb_spec (id l) j) as [Hj|Hj]; cbn.
  - congruence.
  - destruct (Z.eqb_spec (id l) j); [contradiction|].
    destruct (Z.eqb_spec (id l) i); [reflexivity|contradiction].
  - destruct (Z.eqb_spec (id l) j); [|contradiction].
    destruct (Z.eqb_spec (id l) i); [contradiction|reflexivity].
  - destruct (Z.eqb_spec (id l) j); [contradiction|].
    destruct (Z.eqb_spec (id l) i); [contradiction|]. by rewrite IH.
Qed.

(** X8.  ['layer/rotated'] actions for different ids commute. *)
Theorem rotated_commute (s : State) (i j : Z) (theta phi : Radian) :
  i <> j ->
  exists s',
    run s [rotated i theta; rotated j phi] = Ok s'
    /\ run s [rotated j phi; rotated i theta] = Ok s'.
Proof.
  intros Hij. eexists. unfold run, produce. cbn.
  rewrite (rotate_found_comm i j) by exact Hij. split; reflexivity.
Qed.

Lemma rotated_commute_witness :
  exists s',
    run twoLayers [rotated 1 1%float; rotated 2 2%float] = Ok s'
    /\ run twoLayers [rotated 2 2%float; rotated 1 1%float] = Ok s'.
Proof. apply (rotated_commute twoLayers 1 2). lia. Defined.

Lemma moved_layer_set_rotate (transforms : gmap Z Transform)
    (dx dy : Pixel) (theta : Radian) (layer : Layer) :
  moved_layer transforms dx dy (set_rotate theta layer)
  = set_rotate theta (moved_layer transforms dx dy layer).
Proof.
  unfold moved_layer. cbn.
  destruct (transforms !! id layer); reflexivity.
Qed.

Lemma moved_layer_rotate_found (transforms : gmap Z Transform)
    (dx dy : Pixel) (id0 : Z) (theta : Radian) (ls : list Layer) :
  moved_layer transforms dx dy <$> rotate_found id0 theta ls
  = rotate_found id0 theta (moved_layer transforms dx dy <$> ls).
Proof.
  induction ls as [|l ls IH]; [reflexivity|]. cbn.
  rewrite moved_layer_id.
  destruct (Z.eqb (id l) id0); cbn.
  - by rewrite moved_layer_set_rotate.
  - by rewrite IH.
Qed.

(** X9.  A ['layer/rotated'] and a ['layer/moved'] action commute: rotating
    during a move gesture and moving during a rotation give the same
    state. *)
Theorem moved_rotated_commute (s : State) (dx dy : Pixel) (id0 : Z)
    (theta : Radian) :
  exists s',
    run s [moved dx dy; rotated id0 theta] = Ok s'
    /\ run s [rotated id0 theta; moved dx dy] = Ok s'.
Proof.
  eexists. split.
  - rewrite run_cons, moved_total. reflexivity.
  - rewrite run_cons.
    change (produce s (recipe (rotated id0 theta)))
      with (Ok {| layers := rotate_found id0 theta (layers s);
                  initialTransforms := initialTransforms s |}).
    cbv beta iota. rewrite run_cons, moved_total. cbn.
    by rewrite moved_layer_rotate_found.
Qed.

(** *** ['layer/resized'] and the value of the reducer *)

Lemma forEach_resized_throws (transforms : gmap Z Transform)
    (dx dy : Pixel) (ls : list Layer) :
  (exists layer, layer ∈ ls /\ is_Some (transforms !! id layer)) ->
  forEach (resized_each transforms dx dy) ls = Throw (ReferenceError "x").
Proof.
  intros (l & Hin & Hsome).
  induction ls as [|a ls IH]; [by apply elem_of_nil in Hin|].
  cbn. destruct (transforms !! id a) as [t0|] eqn:Ha.
  - by rewrite (resized_each_with_snapshot _ _ _ _ _ Ha).
  - assert (resized_each transforms dx dy a = Ok a) as ->
      by (unfold resized_each; by rewrite Ha).
    cbn. apply elem_of_cons in Hin as [->|Hin].
    + rewrite Ha in Hsome. by destruct Hsome.
    + by rewrite IH.
Qed.

Lemma forEach_resized_error (transforms : gmap Z Transform)
    (dx dy : Pixel) (ls : list Layer) (e : Error) :
  forEach (resized_each transforms dx dy) ls = Throw e ->
  e = ReferenceError "x".
Proof.
  induction ls as [|a ls IH]; cbn; [discriminate|].
  destruct (transforms !! id a) as [t0|] eqn:Ha.
  - rewrite (resized_each_with_snapshot _ _ _ _ _ Ha). cbn. congruence.
  - assert (resized_each transforms dx dy a = Ok a) as ->
      by (unfold resized_each; by rewrite Ha).
    cbn. destruct (forEach _ ls); cbn; [discriminate|].
    intros [= <-]. by apply IH.
Qed.

(** ['layer/resized'] throws the ReferenceError exactly when some layer of
    the collection has a snapshot. *)
Theorem resized_throws_iff (s : State) (dx dy : Pixel) :
  produce s (recipe (resized dx dy)) = Throw (ReferenceError "x")
  <-> exists layer,
        layer ∈ layers s /\ is_Some (initialTransforms s !! id layer).
Proof.
  unfold produce. cbn. split.
  - intros Hthrow.
    destruct (decide (Forall (fun l => initialTransforms s !! id l = None)
                             (layers s))) as [Hall|Hex].
    + rewrite forEach_unchanged in Hthrow; [discriminate|].
      intros a Ha. unfold resized_each.
      by rewrite (proj1 (Forall_forall _ _) Hall a Ha).
    + apply not_Forall_Exists in Hex; [|solve_decision].
      apply Exists_exists in Hex as (l & Hl & Hsome).
      exists l. split; [exact Hl|].
      cbn in Hsome. by destruct (initialTransforms s !! id l).
  - intros Hex. by rewrite forEach_resized_throws.
Qed.

Lemma resized_throws_iff_witness :
  produce snapshotState (recipe (resized 50%float 20%float))
  = Throw (ReferenceError "x").
Proof.
  apply (proj2 (resized_throws_iff snapshotState 50%float 20%float)).
  exists (seededLayer None None). split.
  - apply list_elem_of_here.
  - vm_compute. eexists. reflexivity.
Defined.

(** For every state and action the earlier reducer returns [undefined];
    the later one returns [undefined] too, unless the action is
    ['layer/resized'] and it throws the ReferenceError.  Neither ever
    returns a state. *)
Theorem reducer_result (cs : option State) (a : Action) :
  RectLayer.reducer cs a = Ok None
  /\ (reducer cs a = Ok None
      \/ ((exists dx dy, a = resized dx dy)
          /\ reducer cs a = Throw (ReferenceError "x"))).
Proof.
  split.
  - unfold RectLayer.reducer, produce.
    destruct a as [i|dx dy| |dx dy|i theta|ty]; cbn; try reflexivity.
    rewrite (forEach_total _ _ _ (moved_each_total _ dx dy)). reflexivity.
  - unfold reducer, produce.
    destruct a as [i|dx dy| |dx dy|i theta|ty]; cbn;
      try (left; reflexivity).
    + left. rewrite (forEach_total _ _ _ (moved_each_total _ dx dy)).
      reflexivity.
    + destruct (forEach _ _) as [ls|e] eqn:Hls; cbn; [by left|].
      right. apply forEach_resized_error in Hls. subst e. eauto.
Qed.

(** ** Further properties of the touch handlers *)

(** X10.  A touch-start is not filtered by a gesture already in progress: with
    both targets and exactly one changed touch it replaces whatever start
    was recorded, calls [onDragStart] with the new position, and [Canvas]
    dispatches ['layer/moveStarted'] with the layer id of the current
    target. *)
Theorem touchStart_restarts (this : TouchDraggable.t) (e0 e1 : TouchEvent)
    (el el' : EventTarget) (t1 : Touch) :
  currentTarget e1 = Some el -> target e1 = Some el' ->
  changedTouches e1 = [t1] ->
  _onTouchStart (fst (_onTouchStart this e0)) e1
  = ({| initialTouch := Some (clientX t1, clientY t1) |},
     [stopPropagation; onDragStart (clientX t1) (clientY t1) e1])
  /\ moveStarted_dispatches
       (snd (_onTouchStart (fst (_onTouchStart this e0)) e1))
     = [moveStarted (layerId el)].
Proof. intros Hc Ht Hl. by apply touchStart_single with el'. Qed.

Lemma touchStart_restarts_witness :
  _onTouchStart (fst (_onTouchStart {| initialTouch := None |}
                                    (touchAt 1%float 2%float)))
                (touchAt 30%float 40%float)
  = ({| initialTouch := Some (30%float, 40%float) |},
     [stopPropagation;
      onDragStart 30%float 40%float (touchAt 30%float 40%float)])
  /\ moveStarted_dispatches
       (snd (_onTouchStart (fst (_onTouchStart {| initialTouch := None |}
                                               (touchAt 1%float 2%float)))
                           (touchAt 30%float 40%float)))
     = [moveStarted 1].
Proof.
  apply (touchStart_restarts {| initialTouch := None |}
           (touchAt 1%float 2%float) (touchAt 30%float 40%float)
           {| layerId := 1 |} {| layerId := 1 |}
           {| clientX := 30%float; clientY := 40%float |});
    reflexivity.
Defined.

Lemma touchMove_keeps_state (this : TouchDraggable.t) (e : TouchEvent) :
  fst (_onTouchMove this e) = this.
Proof.
  unfold _onTouchMove.
  destruct (lacks_target e), (not_single_touch e); try reflexivity.
  destruct (initialTouch this) as [[x0 y0]|], (changedTouches e);
    reflexivity.
Qed.

(** X11.  A touch-move event is dropped (propagation stopped, no [onMove], the
    recorded start untouched) when a target is missing, when it does not
    carry exactly one changed touch, or when no start is recorded. *)
Theorem touchMove_ignored (this : TouchDraggable.t) (e : TouchEvent) :
  currentTarget e = None \/ target e = None
  \/ length (changedTouches e) <> 1%nat \/ initialTouch this = None ->
  _onTouchMove this e = (this, [stopPropagation]).
Proof.
  intros Hguard. unfold _onTouchMove.
  destruct Hguard as [H|[H|[H|H]]].
  - unfold lacks_target. rewrite H. reflexivity.
  - unfold lacks_target. rewrite H. destruct (currentTarget e); reflexivity.
  - unfold lacks_target, not_single_touch.
    destruct (currentTarget e), (target e); cbn; try reflexivity.
    apply Nat.eqb_neq in H. rewrite H. reflexivity.
  - rewrite H.
    destruct (lacks_target e), (not_single_touch e); reflexivity.
Qed.

Lemma touchMove_ignored_witness :
  _onTouchMove {| initialTouch := None |} (touchAt 30%float 40%float)
  = ({| initialTouch := None |}, [stopPropagation]).
Proof.
  apply (touchMove_ignored {| initialTouch := None |}
           (touchAt 30%float 40%float)).
  right. right. right. reflexivity.
Defined.

(** X12.  The deltas of [onMove] are measured from the touch the start recorded,
    not from the previous move: after a start at [t0] and any touch-move
    event in between, a touch-move at [t2] calls
    [onMove(t2.clientX - t0.clientX, t2.clientY - t0.clientY)] and the
    recorded start is still [t0]. *)
Theorem touchMove_delta_from_start (this : TouchDraggable.t)
    (e0 e1 e2 : TouchEvent) (el0 el0' el2 el2' : EventTarget)
    (t0 t2 : Touch) :
  currentTarget e0 = Some el0 -> target e0 = Some el0' ->
  changedTouches e0 = [t0] ->
  currentTarget e2 = Some el2 -> target e2 = Some el2' ->
  changedTouches e2 = [t2] ->
  _onTouchMove (fst (_onTouchMove (fst (_onTouchStart this e0)) e1)) e2
  = ({| initialTouch := Some (clientX t0, clientY t0) |},
     [stopPropagation;
      onMove (PrimFloat.sub (clientX t2) (clientX t0))
             (PrimFloat.sub (clientY t2) (clientY t0))]).
Proof.
  intros Hc0 Ht0 Hl0 Hc2 Ht2 Hl2.
  rewrite touchMove_keeps_state.
  rewrite (proj1 (touchStart_single this e0 el0 el0' t0 Hc0 Ht0 Hl0)).
  unfold _onTouchMove, lacks_target, not_single_touch.
  rewrite Hc2, Ht2, Hl2. reflexivity.
Qed.

Lemma touchMove_delta_from_start_witness :
  _onTouchMove
    (fst (_onTouchMove
            (fst (_onTouchStart {| initialTouch := None |}
                                (touchAt 30%float 40%float)))
            (touchAt 35%float 41%float)))
    (touchAt 45%float 35%float)
  = ({| initialTouch := Some (30%float, 40%float) |},
     [stopPropagation; onMove 15%float (-5)%float]).
Proof.
  apply (touchMove_delta_from_start {| initialTouch := None |}
           (touchAt 30%float 40%float) (touchAt 35%float 41%float)
           (touchAt 45%float 35%float)
           {| layerId := 1 |} {| layerId := 1 |}
           {| layerId := 1 |} {| layerId := 1 |}
           {| clientX := 30%float; clientY := 40%float |}
           {| clientX := 45%float; clientY := 35%float |});
    reflexivity.
Defined.



(** When [onDragEnd] throws, the recorded start is not cleared; the
    [onDragEnd] of [Canvas] always throws. *)
Lemma touchEnd_handler_throws (h : TouchEvent -> result unit)
    (this : TouchDraggable.t) (e : TouchEvent) (err : Error) :
  h e = Throw err ->
  _onTouchEnd h this e = (this, [stopPropagation; onDragEnd e]).
Proof. intros Hh. unfold _onTouchEnd. by rewrite Hh. Qed.

Lemma touchEnd_Canvas (this : TouchDraggable.t) (e : TouchEvent) :
  _onTouchEnd Canvas_onDragEnd this e
  = (this, [stopPropagation; onDragEnd e]).
Proof. reflexivity. Qed.

Lemma touchEnd_calls (h : TouchEvent -> result unit)
    (this : TouchDraggable.t) (e : TouchEvent) :
  snd (_onTouchEnd h this e) = [stopPropagation; onDragEnd e].
Proof. unfold _onTouchEnd. destruct (h e); reflexivity. Qed.

(** X14.  Each of the three handlers stops the propagation of its event first,
    on every path, and does so once. *)
Theorem handlers_stop_propagation (h : TouchEvent -> result unit)
    (this : TouchDraggable.t) (e : TouchEvent) :
  Forall (fun calls =>
            exists rest, calls = stopPropagation :: rest
                         /\ Forall (fun c => c <> stopPropagation) rest)
         [snd (_onTouchStart this e);
          snd (_onTouchMove this e);
          snd (_onTouchEnd h this e)].
Proof.
  repeat apply Forall_cons_2; [| | |apply Forall_nil_2].
  - unfold _onTouchStart.
    destruct (lacks_target e), (not_single_touch e), (changedTouches e);
      cbn; eexists; (split; [reflexivity|]);
      repeat constructor; discriminate.
  - unfold _onTouchMove.
    destruct (lacks_target e), (not_single_touch e),
      (initialTouch this) as [[x0 y0]|], (changedTouches e);
      cbn; eexists; (split; [reflexivity|]);
      repeat constructor; discriminate.
  - rewrite touchEnd_calls. eexists. split; [reflexivity|].
    repeat constructor. discriminate.
Qed.

(** X15.  Only a touch-start can make [Canvas] dispatch ['layer/moveStarted']:
    touch-move and touch-end events never call [onDragStart], and a
    touch-move never changes the recorded start. *)
Theorem only_touchStart_starts (h : TouchEvent -> result unit)
    (this : TouchDraggable.t) (e : TouchEvent) :
  filter (fun c => is_onDragStart c = true) (snd (_onTouchMove this e)) = []
  /\ filter (fun c => is_onDragStart c = true) (snd (_onTouchEnd h this e))
     = []
  /\ moveStarted_dispatches (snd (_onTouchMove this e)) = []
  /\ moveStarted_dispatches (snd (_onTouchEnd h this e)) = []
  /\ fst (_onTouchMove this e) = this.
Proof.
  rewrite !touchEnd_calls.
  assert (Hmove : forall c, c ∈ snd (_onTouchMove this e) ->
                            is_onDragStart c = false).
  { unfold _onTouchMove.
    destruct (lacks_target e), (not_single_touch e),
      (initialTouch this) as [[x0 y0]|], (changedTouches e); cbn;
      intros c Hc; repeat (apply elem_of_cons in Hc as [->|Hc]; [done|]);
      by apply elem_of_nil in Hc. }
  split; [|split; [reflexivity|split; [|split; [reflexivity|]]]].
  - induction (snd (_onTouchMove this e)) as [|c cs IH]; [reflexivity|].
    rewrite filter_cons. rewrite (Hmove c) by apply list_elem_of_here.
    cbn. apply IH. intros c' Hc'. by apply Hmove, list_elem_of_further.
  - unfold moveStarted_dispatches.
    induction (snd (_onTouchMove this e)) as [|c cs IH]; [reflexivity|].
    cbn. pose proof (Hmove c (list_elem_of_here _ _)) as Hc.
    destruct c; cbn in Hc; try discriminate; cbn;
      apply IH; intros c' Hc'; by apply Hmove, list_elem_of_further.
  - apply touchMove_keeps_state.
Qed.

(** X16.  A touch-start with both targets and exactly one changed touch, wired
    through [Canvas], snapshots every layer of the collection and leaves
    the layers as they are. *)
Theorem touchStart_snapshots_all (this : TouchDraggable.t) (e : TouchEvent)
    (el el' : EventTarget) (touch : Touch) (s : State) :
  currentTarget e = Some el -> target e = Some el' ->
  changedTouches e = [touch] ->
  exists s',
    run s (moveStarted_dispatches (snd (_onTouchStart this e))) = Ok s'
    /\ layers s' = layers s
    /\ forall layer, layer ∈ layers s ->
                     is_Some (initialTransforms s' !! id layer).
Proof.
  intros Hc Ht Hl.
  rewrite (proj2 (touchStart_single this e el el' touch Hc Ht Hl)).
  eexists. split; [reflexivity|]. split; [reflexivity|].
  intros l Hin. cbn. by apply foldl_moveStarted_covers.
Qed.

Lemma touchStart_snapshots_all_witness :
  exists s',
    run twoLayers
        (moveStarted_dispatches
           (snd (_onTouchStart {| initialTouch := None |}
                               (touchAt 30%float 40%float))))
    = Ok s'
    /\ layers s' = layers twoLayers
    /\ forall layer, layer ∈ layers twoLayers ->
                     is_Some (initialTransforms s' !! id layer).
Proof.
  apply (touchStart_snapshots_all {| initialTouch := None |}
           (touchAt 30%float 40%float) {| layerId := 1 |} {| layerId := 1 |}
           {| clientX := 30%float; clientY := 40%float |} twoLayers);
    reflexivity.
Defined.

(** ** A second finger *)

(** C9 (evaluation at the failing input).  While one finger is down at
    [(10, 10)], the touch-start of a second finger reports two contact
    points on the surface, but only the new one in [changedTouches]; the
    guard reads [changedTouches], so the event is not ignored: the
    recorded start is replaced, [onDragStart] is called, and the
    ['layer/moveStarted'] that [Canvas] dispatches records a snapshot. *)
Theorem second_finger_starts_gesture :
  length (touches secondFingerStart) = 2%nat
  /\ _onTouchStart {| initialTouch := Some (10%float, 10%float) |}
                   secondFingerStart
     = ({| initialTouch := Some (90%float, 40%float) |},
        [stopPropagation; onDragStart 90%float 40%float secondFingerStart])
  /\ run initialState
         (moveStarted_dispatches
            (snd (_onTouchStart
                    {| initialTouch := Some (10%float, 10%float) |}
                    secondFingerStart)))
     = Ok snapshotState.
Proof. repeat split; vm_compute; reflexivity. Qed.

(** ** The rotation angle *)

(** When all four parameters of [onMove] are bound, the angle is
    [Math.atan2(y - cy, x - cx)]. *)
Lemma onMove_four_arguments (atan2_host : float -> float -> float)
    (cx cy dx dy px py : float) :
  RotateHandler.call_onMove atan2_host (cx, cy)
    [VNumber dx; VNumber dy; VNumber px; VNumber py]
  = RotateHandler.Math_atan2 atan2_host (PrimFloat.sub py cy)
                             (PrimFloat.sub px cx).
Proof. reflexivity. Qed.

